(** * SimSpec: frame sampler, progressive analysis harness and report generator

    A shallow embedding of the three scripts of the repository

      - [extract_frames.py]        (the frame sampler),
      - [simspec_test_harness.py]  (mock service, classifier, question
                                    generator, analysis runner),
      - [generate_report.py]       (the report generator),

    followed by the properties of the specification, each stated against
    these definitions.

    Conventions of the embedding.

      - Python [str] values are [string]s, the bytes of their UTF-8
        encoding.  The prompts, responses and keywords are ASCII; [lower]
        folds the letters A-Z and leaves every other byte alone, which is
        what [str.lower] does on ASCII text.  (On other text [str.lower]
        also changes characters outside ASCII; the only two whose lower
        case holds an ASCII letter give "k" and "i" followed by a combining
        dot, and no keyword searched for has a "k" or ends in "i", so the
        keyword tests come out the same.)
      - Python [float] values are IEEE binary64 numbers, [spec_float] with
        precision 53 and maximal exponent 1024; arithmetic on them is the
        correctly rounded arithmetic of [SpecFloat], not real arithmetic.
      - A Python number that may be an [int] or a [float] is a [pynum].
      - A call that may raise returns a [result]; an unhandled exception of
        a script is the [Raise] outcome of its model.
      - [time.time()] is an oracle: the k-th call of a run reads [clock k].
      - [print] calls are left out, except the messages of the early
        returns and the lines of the report the properties speak about. *)

From Stdlib Require Import ZArith NArith List String Ascii Bool Lia.
From Stdlib Require Import DecimalString QArith Qround ListSet Permutation.
From Stdlib Require Import SpecFloat.
Import ListNotations.

Local Open Scope list_scope.
Local Open Scope string_scope.
Local Open Scope Z_scope.

(* ================================================================== *)
(** * Part I: definitions                                              *)
(* ================================================================== *)

(** ** Exceptions and results *)

Inductive exception : Type :=
  | IndexError
  | ZeroDivisionError
  | ValueError
  | OverflowError.

Inductive result (A : Type) : Type :=
  | Ok (a : A)
  | Raise (e : exception).

Arguments Ok {A} a.
Arguments Raise {A} e.

Definition bind {A B : Type} (r : result A) (k : A -> result B) : result B :=
  match r with
  | Ok a => k a
  | Raise e => Raise e
  end.

Notation "x <- r ;; k" := (bind r (fun x => k))
  (at level 61, r at next level, right associativity).

(** ** Python strings *)

Module PyStr.

(** [s.lower()] on ASCII text. *)
Definition lower_char (c : ascii) : ascii :=
  let n := N_of_ascii c in
  if ((65 <=? n) && (n <=? 90))%N then ascii_of_N (n + 32) else c.

Fixpoint lower (s : string) : string :=
  match s with
  | EmptyString => EmptyString
  | String c t => String (lower_char c) (lower t)
  end.

(** [s.startswith(p)]. *)
Fixpoint startswith (s p : string) {struct p} : bool :=
  match p with
  | EmptyString => true
  | String a p' =>
      match s with
      | EmptyString => false
      | String b s' => Ascii.eqb a b && startswith s' p'
      end
  end.

(** [sub in s]: [sub] starts at some position of [s]. *)
Fixpoint contains (sub s : string) : bool :=
  startswith s sub ||
  match s with
  | EmptyString => false
  | String _ t => contains sub t
  end.

(** [s.endswith(p)]. *)
Fixpoint endswith (s p : string) : bool :=
  String.eqb s p ||
  match s with
  | EmptyString => false
  | String _ t => endswith t p
  end.

(** [s[n:]]. *)
Fixpoint drop (n : nat) (s : string) : string :=
  match n, s with
  | O, _ => s
  | S _, EmptyString => EmptyString
  | S k, String _ t => drop k t
  end.

(** [s.partition(sep)] when [sep] occurs in [s]: the text before the first
    occurrence and the text after it. *)
Fixpoint find (sep s : string) : option (string * string) :=
  if startswith s sep then Some (EmptyString, drop (String.length sep) s)
  else
    match s with
    | EmptyString => None
    | String c t =>
        match find sep t with
        | Some (before, after) => Some (String c before, after)
        | None => None
        end
    end.

(** [s.split(sep)] for a non-empty separator: cut at the occurrences of
    [sep], scanning from the left.  Every cut removes at least one
    character, so [S (length s)] rounds are enough (see
    [split_fuel_enough]). *)
Fixpoint split_fuel (fuel : nat) (sep s : string) : list string :=
  match fuel with
  | O => [s]
  | S k =>
      match find sep s with
      | None => [s]
      | Some (before, after) => before :: split_fuel k sep after
      end
  end.

Definition split (sep s : string) : list string :=
  split_fuel (S (String.length s)) sep s.

(** [l[i]] on a list of strings. *)
Definition item (l : list string) (i : nat) : result string :=
  match nth_error l i with
  | Some x => Ok x
  | None => Raise IndexError
  end.

(** The characters [str.strip()] removes from ASCII text. *)
Definition isspace (c : ascii) : bool :=
  let n := N_of_ascii c in
  (((9 <=? n) && (n <=? 13)) || ((28 <=? n) && (n <=? 32)))%N.

Fixpoint lstrip (s : string) : string :=
  match s with
  | EmptyString => EmptyString
  | String c t => if isspace c then lstrip t else s
  end.

Fixpoint rstrip (s : string) : string :=
  match s with
  | EmptyString => EmptyString
  | String c t =>
      match rstrip t with
      | EmptyString => if isspace c then EmptyString else String c EmptyString
      | t' => String c t'
      end
  end.

Definition strip (s : string) : string := rstrip (lstrip s).

(** [sorted(l)] on strings: ascending code-point order.  The order is total
    and antisymmetric, so every sorting algorithm returns the same list;
    insertion is used here. *)
Fixpoint insert_sorted (x : string) (l : list string) : list string :=
  match l with
  | [] => [x]
  | y :: rest => if String.leb x y then x :: l else y :: insert_sorted x rest
  end.

Fixpoint sorted (l : list string) : list string :=
  match l with
  | [] => []
  | x :: rest => insert_sorted x (sorted rest)
  end.

(** [sub] occurs in [s]. *)
Definition Substring (sub s : string) : Prop :=
  exists a b, s = a ++ sub ++ b.

(** The first occurrence of [sep] in [s] starts right after [a]. *)
Definition FirstAt (sep a s : string) : Prop :=
  (exists b, s = a ++ sep ++ b) /\
  forall a' b', s = a' ++ sep ++ b' -> (String.length a <= String.length a')%nat.

End PyStr.

(** ** Python floats and numbers *)

Definition float : Type := spec_float.

Module PyFloat.

Definition prec : Z := 53.
Definition emax : Z := 1024.

Definition mul : float -> float -> float := SFmul prec emax.
Definition sub : float -> float -> float := SFsub prec emax.
Definition ltb : float -> float -> bool := SFltb.

(** [x > y], that is [y < x]; false when either side is a NaN. *)
Definition gtb (x y : float) : bool := SFltb y x.

(** The float nearest to [m * 2^e] (ties to even). *)
Definition dyadic (m e : Z) : float := binary_normalize prec emax m e false.

Definition of_Z (n : Z) : float := dyadic n 0.

(** [float(n)] for a Python [int]. *)
Definition of_int (n : Z) : result float :=
  match of_Z n with
  | S754_infinity _ => Raise OverflowError
  | x => Ok x
  end.

Definition is_zero (x : float) : bool :=
  match x with
  | S754_zero _ => true
  | _ => false
  end.

Definition is_finite (x : float) : bool :=
  match x with
  | S754_zero _ | S754_finite _ _ _ => true
  | _ => false
  end.

(** [x / y] on floats. *)
Definition truediv (x y : float) : result float :=
  if is_zero y then Raise ZeroDivisionError else Ok (SFdiv prec emax x y).

(** A Python [int] as an unrounded binary number. *)
Definition exact (n : Z) : float :=
  match n with
  | Z0 => S754_zero false
  | Zpos p => S754_finite false p 0
  | Zneg p => S754_finite true p 0
  end.

(** [a / b] on Python ints: the correctly rounded quotient. *)
Definition int_truediv (a b : Z) : result float :=
  if b =? 0 then Raise ZeroDivisionError
  else
    match SFdiv prec emax (exact a) (exact b) with
    | S754_infinity _ => Raise OverflowError
    | x => Ok x
    end.

(** [int(x)]: the integer part, towards zero. *)
Definition to_int (x : float) : result Z :=
  match x with
  | S754_nan => Raise ValueError
  | S754_infinity _ => Raise OverflowError
  | S754_zero _ => Ok 0
  | S754_finite s m e => Ok (cond_Zopp s (Z.shiftl (Zpos m) e))
  end.

(** The fraction [(n, d)] with [n / d] the magnitude [m * 2^e]. *)
Definition magnitude (m : positive) (e : Z) : Z * Z :=
  match e with
  | Zneg p => (Zpos m, Zpos (2 ^ p))
  | _ => (Zpos m * 2 ^ e, 1)
  end.

(** The integer nearest to [n / d], ties to the even one ([0 <= n], [0 < d]). *)
Definition round_half_even (n d : Z) : Z :=
  let q := n / d in
  match 2 * (n mod d) ?= d with
  | Lt => q
  | Gt => q + 1
  | Eq => if Z.even q then q else q + 1
  end.

(** [round(x)]. *)
Definition round (x : float) : result Z :=
  match x with
  | S754_nan => Raise ValueError
  | S754_infinity _ => Raise OverflowError
  | S754_zero _ => Ok 0
  | S754_finite s m e =>
      let (n, d) := magnitude m e in Ok (cond_Zopp s (round_half_even n d))
  end.

(** The rational a finite float denotes. *)
Definition value (x : float) : Q :=
  match x with
  | S754_finite s m e =>
      match e with
      | Zneg p => cond_Zopp s (Zpos m) # (2 ^ p)
      | _ => inject_Z (cond_Zopp s (Zpos m * 2 ^ e))
      end
  | _ => 0%Q
  end.

(** The integer part of a rational, towards zero. *)
Definition Qtrunc (q : Q) : Z :=
  if Qle_bool 0 q then Qfloor q else Qceiling q.

(** Decimal digits of a natural number. *)
Definition digits_of (n : Z) : string :=
  NilZero.string_of_uint (N.to_uint (Z.to_N n)).

Fixpoint zeros (n : nat) : string :=
  match n with
  | O => EmptyString
  | S k => String "0" (zeros k)
  end.

(** [s.zfill(width)] on a string of digits. *)
Definition zfill (width : nat) (s : string) : string :=
  zeros (width - String.length s) ++ s.

(** [r / 10^digits] written with [digits] decimals. *)
Definition fixed (digits : nat) (r : Z) : string :=
  let scale := 10 ^ Z.of_nat digits in
  digits_of (r / scale) ++
  match digits with
  | O => EmptyString
  | S _ => "." ++ zfill digits (digits_of (r mod scale))
  end.

Definition sign_of (s : bool) : string := if s then "-" else EmptyString.

(** [f"{x:.<digits>f}"]: the exact value rounded to [digits] decimals, ties
    to even. *)
Definition format_f (digits : nat) (x : float) : string :=
  match x with
  | S754_nan => "nan"
  | S754_infinity s => sign_of s ++ "inf"
  | S754_zero s => sign_of s ++ fixed digits 0
  | S754_finite s m e =>
      let (n, d) := magnitude m e in
      sign_of s ++ fixed digits (round_half_even (n * 10 ^ Z.of_nat digits) d)
  end.

(** [f"{n:0<width>d}"] for a Python [int]. *)
Definition format_0d (width : nat) (n : Z) : string :=
  if n <? 0 then "-" ++ zfill (width - 1) (digits_of (- n))
  else zfill width (digits_of n).

End PyFloat.

(** A Python number: an [int] or a [float]. *)
Inductive pynum : Type :=
  | PyInt (n : Z)
  | PyFloat (x : float).

(** The conversion Python applies to a number that meets a float in an
    arithmetic operation. *)
Definition as_float (v : pynum) : result float :=
  match v with
  | PyInt n => PyFloat.of_int n
  | PyFloat x => Ok x
  end.

(** [n % d] on Python ints; the sign of the result is that of [d], as with
    [Z.modulo]. *)
Definition py_mod (n d : Z) : result Z :=
  if d =? 0 then Raise ZeroDivisionError else Ok (n mod d).

(** [os.path.join(a, b)] on POSIX paths. *)
Definition path_join (a b : string) : string :=
  if PyStr.startswith b "/" then b
  else if String.eqb a EmptyString || PyStr.endswith a "/" then a ++ b
  else a ++ "/" ++ b.

(** ** extract_frames.py *)

Module ExtractFrames.

(** A decoded picture; only its dimensions are kept. *)
Record image : Type := { width : Z; height : Z }.

(** [cv2.resize(frame, (w, h))]. *)
Definition resize (frame : image) (w h : Z) : image :=
  {| width := w; height := h |}.


(** An entry of [extracted_frames]. *)
Record SampledFrame : Type := {
  filepath : string;
  timestamp : float;
  frame_number : Z
}.

(** The variables of the [while True] loop, and the files [cv2.imwrite]
    has written so far, oldest first. *)
Record sampler : Type := {
  frame_count : Z;
  extracted_count : Z;
  extracted_frames : list SampledFrame;
  written : list (string * image)
}.

(** [frame_interval = int(fps * interval_seconds)]. *)
Definition frame_interval_of (fps : float) (interval_seconds : pynum)
    : result Z :=
  interval <- as_float interval_seconds ;;
  PyFloat.to_int (PyFloat.mul fps interval).

(** [f"frame_{extracted_count:03d}_t{timestamp:.1f}s.jpg"]. *)
Definition frame_filename (extracted_count : Z) (timestamp : float) : string :=
  "frame_" ++ PyFloat.format_0d 3 extracted_count ++ "_t" ++
  PyFloat.format_f 1 timestamp ++ "s.jpg".

(** One round of the loop after a successful [cap.read()]. *)
Definition sample_frame (fps : float) (output_dir : string)
    (frame_interval : Z) (st : sampler) (frame : image) : result sampler :=
  r <- py_mod (frame_count st) frame_interval ;;
  if r =? 0 then
    n <- PyFloat.of_int (frame_count st) ;;
    timestamp <- PyFloat.truediv n fps ;;
    let filename := frame_filename (extracted_count st) timestamp in
    let filepath := path_join output_dir filename in
    let resized_frame := resize frame 512 512 in
    Ok {| frame_count := frame_count st + 1;
          extracted_count := extracted_count st + 1;
          extracted_frames :=
            (extracted_frames st ++
             [ {| filepath := filepath;
                  timestamp := timestamp;
                  frame_number := frame_count st |} ])%list;
          written := (written st ++ [(filepath, resized_frame)])%list |}
  else
    Ok {| frame_count := frame_count st + 1;
          extracted_count := extracted_count st;
          extracted_frames := extracted_frames st;
          written := written st |}.

(** The loop: one round per frame of the stream, until a read fails. *)
Fixpoint sample_loop (fps : float) (output_dir : string) (frame_interval : Z)
    (frames : list image) (st : sampler) : result sampler :=
  match frames with
  | [] => Ok st
  | frame :: rest =>
      st' <- sample_frame fps output_dir frame_interval st frame ;;
      sample_loop fps output_dir frame_interval rest st'
  end.

Definition sampler_start : sampler :=
  {| frame_count := 0; extracted_count := 0;
     extracted_frames := []; written := [] |}.




(** The stride the specification describes: [round(fps * interval)]. *)
Definition spec_stride (fps : float) (interval_seconds : pynum) : result Z :=
  interval <- as_float interval_seconds ;;
  PyFloat.round (PyFloat.mul fps interval).

End ExtractFrames.

(** ** simspec_test_harness.py *)

Module Harness.

(** *** ContextInterpreter *)

Definition any_in (words : list string) (s : string) : bool :=
  existsb (fun word => PyStr.contains word s) words.

Definition FATIGUE : string := "Fatigue Analysis, Stress Concentration".
Definition CRACK : string := "Crack Propagation, Residual Stress Analysis".
Definition REMAINING_LIFE : string :=
  "Remaining Life Assessment, Material Degradation Study".
Definition FLUID : string := "Fluid Dynamics, Pressure Drop Analysis".
Definition GENERAL : string := "General Structural Analysis".

Definition get_analysis_type (ai_response : string) : string :=
  let lowercased_response := PyStr.lower ai_response in
  if any_in ["fastener"; "bolt"; "screw"] lowercased_response then FATIGUE
  else if PyStr.contains "weld" lowercased_response then CRACK
  else if any_in ["corrosion"; "rust"] lowercased_response then REMAINING_LIFE
  else if any_in ["pipe"; "flange"] lowercased_response then FLUID
  else GENERAL.

(** The five strings [get_analysis_type] can return. *)
Definition categories : list string :=
  [FATIGUE; CRACK; REMAINING_LIFE; FLUID; GENERAL].

(** *** QuestionGenerator *)

Record question_data : Type := {
  question : string;
  options : list string
}.

(** [questions_map], a dict: its items in insertion order. *)
Definition questions_map : list (string * question_data) :=
  [ (FATIGUE,
     {| question := "What is the primary loading condition for these fasteners?";
        options := ["Static Tension"; "Cyclic (Vibration)"; "Shear"; "Unknown"] |});
    (CRACK,
     {| question := "What welding process was likely used?";
        options := ["MIG/GMAW"; "TIG/GTAW"; "Stick/SMAW"; "Unknown"] |});
    (REMAINING_LIFE,
     {| question := "What is the operational environment?";
        options := ["Dry, Indoor"; "Humid, Outdoor"; "Marine/Salt-Spray";
                    "Chemical Exposure"] |});
    (FLUID,
     {| question := "What is the typical operating pressure?";
        options := ["Low (< 50 psi)"; "Medium (50-500 psi)"; "High (> 500 psi)";
                    "Unknown"] |}) ].

(** [key.split(",")[0].strip()]; [split] never returns an empty list, so the
    index 0 is always there. *)
Definition key_prefix (key : string) : string :=
  PyStr.strip (hd EmptyString (PyStr.split "," key)).

(** The [for key, question_data in ...items()] loop of [generate_question]. *)
Fixpoint generate_question_in (items : list (string * question_data))
    (analysis_type : string) : option question_data :=
  match items with
  | [] => None
  | (key, data) :: rest =>
      if PyStr.contains (key_prefix key) analysis_type then Some data
      else generate_question_in rest analysis_type
  end.

Definition generate_question (analysis_type : string) : option question_data :=
  generate_question_in questions_map analysis_type.

(** The question of the fastener category. *)
Definition fastener_question : question_data :=
  {| question := "What is the primary loading condition for these fasteners?";
     options := ["Static Tension"; "Cyclic (Vibration)"; "Shear"; "Unknown"] |}.


(** *** MockLeapService *)

Record MockLeapService : Type := {
  initialized : bool;
  model_load_time : pynum
}.

(** [MockLeapService()]. *)
Definition new_service : MockLeapService :=
  {| initialized := false; model_load_time := PyInt 0 |}.

Definition NOT_INITIALIZED : string := "Error: LEAP SDK not initialized".
Definition UNABLE : string := "Unable to analyze this aspect of the component.".

(** The [responses] table of [_generate_mock_response]. *)
Definition response_overall : string :=
  "This image shows a large industrial pipe flange assembly with multiple bolt connections. The system appears to be part of a pressure vessel or piping network with metallic components.".
Definition response_component : string :=
  "The main component is a flanged pipe connection with approximately 8-12 bolts arranged in a circular pattern. The flange appears to be a raised-face type with gasket sealing surface.".
Definition response_connections : string :=
  "The connection points consist of high-strength bolts with hex nuts, likely Grade 8 or similar. The bolts appear to be in tension loading configuration with visible thread engagement.".
Definition response_condition : string :=
  "Surface shows signs of light corrosion and weathering typical of outdoor industrial environments. Some bolt heads show minor rust staining but no significant structural deterioration is visible.".
Definition response_summary : string :=
  "This flanged connection appears to be functioning within normal parameters. The slight surface corrosion suggests routine maintenance inspection is recommended, particularly for gasket integrity and bolt torque verification.".

Definition responses : list string :=
  [response_overall; response_component; response_connections;
   response_condition; response_summary].

Definition _generate_mock_response (prompt image_path : string) : string :=
  let p := PyStr.lower prompt in
  if PyStr.contains "overall" p || PyStr.contains "system" p
  then response_overall
  else if PyStr.contains "component" p || PyStr.contains "mechanical" p
  then response_component
  else if PyStr.contains "connection" p || PyStr.contains "bolts" p
  then response_connections
  else if PyStr.contains "surface" p || PyStr.contains "condition" p
  then response_condition
  else if PyStr.contains "summary" p || PyStr.contains "function" p
  then response_summary
  else UNABLE.

(** *** Records of the run *)

Record AnalysisStep : Type := {
  step : Z;
  prompt : string;
  response : string;
  inference_time_ms : pynum;
  analysis_type : string;
  generated_question : option question_data
}.

Record FrameResult : Type := {
  frame : string;
  timestamp : string;
  analyses : list AnalysisStep
}.

(** The document [json.dump] writes to [simspec_test_results.json]. *)
Record RunReport : Type := {
  model_load_time_s : pynum;
  total_frames_analyzed : Z;
  prompts_per_frame : Z;
  results : list FrameResult
}.

(** How a call of [run_progressive_analysis_test] ends when nothing is
    raised: an early return after a printed message, or the report written
    and its [results] returned. *)
Inductive outcome : Type :=
  | Aborted (message : string)
  | Completed (report : RunReport).

Definition prompts : list string :=
  [ "Describe the overall system or machine in this image.";
    "Identify the main mechanical component in the center of the image.";
    "Focus on the connection points. Are there bolts, welds, or clamps?";
    "Describe the surface condition. Is there evidence of wear, corrosion, or damage?";
    "Provide a summary of the component's likely function and condition." ].

Definition frames_dir : string := "extracted_frames".

(** [sorted([f for f in os.listdir(frames_dir) if f.endswith('.jpg')])],
    given the names [os.listdir] returns. *)
Definition frame_files_of (names : list string) : list string :=
  PyStr.sorted (filter (fun f => PyStr.endswith f ".jpg") names).

(** [frame_file.split('_t')[1].split('s.jpg')[0] + 's']. *)
Definition timestamp_of (frame_file : string) : result string :=
  segment <- PyStr.item (PyStr.split "_t" frame_file) 1 ;;
  label <- PyStr.item (PyStr.split "s.jpg" segment) 0 ;;
  Ok (label ++ "s").

Section Clock.

(** The value of the k-th call of [time.time()]; the functions below take
    the number of calls made so far and return the number afterwards. *)
Variable clock : nat -> float.

(** [initialize]. *)
Definition initialize (self : MockLeapService) (tick : nat)
    : MockLeapService * nat :=
  let start_time := clock tick in
  ({| initialized := true;
      model_load_time := PyFloat (PyFloat.sub (clock (S tick)) start_time) |},
   S (S tick)).

(** [analyze_image]: the response, the elapsed time, the clock position. *)
Definition analyze_image (self : MockLeapService) (tick : nat)
    (image_path prompt : string) : string * pynum * nat :=
  if negb (initialized self) then (NOT_INITIALIZED, PyInt 0, tick)
  else
    let start_time := clock tick in
    let inference_time := PyFloat.sub (clock (S tick)) start_time in
    let mock_response := _generate_mock_response prompt image_path in
    (mock_response,
     PyFloat (PyFloat.mul inference_time (PyFloat.of_Z 1000)),
     S (S tick)).

(** The body of [for i, prompt in enumerate(prompts)]. *)
Definition analyze_prompt (leap_service : MockLeapService)
    (frame_path : string) (i : Z) (prompt : string) (tick : nat)
    : AnalysisStep * nat :=
  let '(response, inference_time, tick') :=
    analyze_image leap_service tick frame_path prompt in
  let analysis_type := get_analysis_type response in
  let question_data := generate_question analysis_type in
  ({| step := i + 1;
      prompt := prompt;
      response := response;
      inference_time_ms := inference_time;
      analysis_type := analysis_type;
      generated_question := question_data |},
   tick').

(** The loop over [enumerate(prompts)], from index [i] on, appending to
    [analyses]. *)
Fixpoint analyze_prompts (leap_service : MockLeapService)
    (frame_path : string) (i : Z) (todo : list string) (tick : nat)
    (analyses : list AnalysisStep) : list AnalysisStep * nat :=
  match todo with
  | [] => (analyses, tick)
  | prompt :: rest =>
      let (analysis_result, tick') :=
        analyze_prompt leap_service frame_path i prompt tick in
      analyze_prompts leap_service frame_path (i + 1) rest tick'
        (analyses ++ [analysis_result])%list
  end.

(** The body of [for frame_file in frame_files]. *)
Definition analyze_frame (leap_service : MockLeapService)
    (frame_file : string) (tick : nat) : result (FrameResult * nat) :=
  let frame_path := path_join frames_dir frame_file in
  timestamp <- timestamp_of frame_file ;;
  let (analyses, tick') :=
    analyze_prompts leap_service frame_path 0 prompts tick [] in
  Ok ({| frame := frame_file; timestamp := timestamp; analyses := analyses |},
      tick').

(** The loop over [frame_files], appending to [results]. *)
Fixpoint analyze_frames (leap_service : MockLeapService)
    (frame_files : list string) (tick : nat) (results : list FrameResult)
    : result (list FrameResult * nat) :=
  match frame_files with
  | [] => Ok (results, tick)
  | frame_file :: rest =>
      r <- analyze_frame leap_service frame_file tick ;;
      analyze_frames leap_service rest (snd r) (results ++ [fst r])%list
  end.

(** The part of [run_progressive_analysis_test] after the service is set
    up.  [listing] is [os.listdir(frames_dir)], or [None] when the
    directory does not exist. *)
Definition run_with (leap_service : MockLeapService) (tick : nat)
    (listing : option (list string)) : result outcome :=
  match listing with
  | None =>
      Ok (Aborted
        "Error: extracted_frames directory not found. Run extract_frames.py first.")
  | Some names =>
      let frame_files := frame_files_of names in
      match frame_files with
      | [] => Ok (Aborted "Error: No frame files found in extracted_frames")
      | _ =>
          r <- analyze_frames leap_service frame_files tick [] ;;
          Ok (Completed
            {| model_load_time_s := model_load_time leap_service;
               total_frames_analyzed := Z.of_nat (List.length frame_files);
               prompts_per_frame := Z.of_nat (List.length prompts);
               results := fst r |})
      end
  end.

(** [run_progressive_analysis_test]. *)
Definition run_progressive_analysis_test (listing : option (list string))
    : result outcome :=
  let (leap_service, tick) := initialize new_service 0 in
  run_with leap_service tick listing.

End Clock.

(** *** What a run records

    [step_of] relates a prompt to the entry the runner appends for it, and
    [frame_of] a frame file to its entry of [results]; neither mentions the
    clock. *)

Definition step_of (leap_service : MockLeapService) (frame_path : string)
    (p : string) (a : AnalysisStep) : Prop :=
  prompt a = p /\
  response a =
    (if initialized leap_service then _generate_mock_response p frame_path
     else NOT_INITIALIZED) /\
  (initialized leap_service = false -> inference_time_ms a = PyInt 0) /\
  analysis_type a = get_analysis_type (response a) /\
  generated_question a = generate_question (analysis_type a).

Definition frame_of (leap_service : MockLeapService) (frame_file : string)
    (r : FrameResult) : Prop :=
  frame r = frame_file /\
  timestamp_of frame_file = Ok (timestamp r) /\
  Forall2 (step_of leap_service (path_join frames_dir frame_file))
    prompts (analyses r) /\
  map step (analyses r) = [1; 2; 3; 4; 5].

End Harness.

(** ** generate_report.py

    [data] is the document [json.load] reads back: the numbers, strings
    and nulls of a [RunReport] survive the dump and the load unchanged. *)

Module Report.

Import Harness.

(** [total_analyses = total_frames * prompts_per_frame]. *)
Definition total_analyses (data : RunReport) : Z :=
  total_frames_analyzed data * prompts_per_frame data.

(** [all_inference_times]: the times of every analysis of every frame,
    in the order of the file. *)
Definition all_inference_times (data : RunReport) : list pynum :=
  flat_map (fun frame_result => map inference_time_ms (analyses frame_result))
    (results data).

(** *** Mobile performance projection

    [mean] stands for [statistics.mean(all_inference_times)], the pooled
    mean over every analysis of every frame; it is an [int] when every
    time of the file is an [int] and their mean is a whole number. *)

Definition mobile_multiplier : float := PyFloat.dyadic 5 (-1).

(** The literal [3000] the projection is compared with. *)
Definition throttle_ms : float := PyFloat.of_Z 3000.

Definition projected_mobile_avg (mean : pynum) : result float :=
  m <- as_float mean ;;
  Ok (PyFloat.mul m mobile_multiplier).

(** [projected_mobile_avg < 3000]. *)
Definition meets_target (projected : float) : bool :=
  PyFloat.ltb projected throttle_ms.

(** [projected_mobile_avg > 3000]. *)
Definition over_target (projected : float) : bool :=
  PyFloat.gtb projected throttle_ms.

Definition YES : string := "✅ YES".
Definition NO : string := "❌ NO".

(** ['YES' if projected_mobile_avg < 3000 else 'NO'], with the marks the
    script prints. *)
Definition verdict (projected : float) : string :=
  if meets_target projected then YES else NO.


Definition optimization_needed : list string :=
  [ "⚠️  Performance Optimization Needed:";
    "   - Reduce image resolution below 512x512";
    "   - Consider increasing throttle interval to 4-5 seconds";
    "   - Optimize prompts for faster inference" ].

Definition looks_good : list string :=
  [ "✅ Performance looks good for mobile deployment" ].

(** The block printed first under "RECOMMENDATIONS FOR ANDROID
    IMPLEMENTATION". *)
Definition recommendation_lines (projected : float) : list string :=
  if over_target projected then optimization_needed else looks_good.

(** *** Generated questions analysis *)

(** The body of the inner loop: [questions_generated] and
    [unique_questions] after one more analysis.  A question read back from
    the file is a dict with two keys, hence true in a condition; [None] is
    false. *)
Definition count_question (acc : Z * set string) (analysis : AnalysisStep)
    : Z * set string :=
  match generated_question analysis with
  | Some q => (fst acc + 1, set_add string_dec (question q) (snd acc))
  | None => acc
  end.

(** [(questions_generated, unique_questions)] after the two loops. *)
Definition question_stats (data : RunReport) : Z * set string :=
  fold_left
    (fun acc frame_result =>
       fold_left count_question (analyses frame_result) acc)
    (results data) (0, empty_set string).

Definition questions_generated (data : RunReport) : Z :=
  fst (question_stats data).

(** [len(unique_questions)]. *)
Definition unique_questions (data : RunReport) : Z :=
  Z.of_nat (List.length (snd (question_stats data))).

(** [(questions_generated/total_analyses)*100]. *)
Definition generation_rate (data : RunReport) : result float :=
  q <- PyFloat.int_truediv (questions_generated data) (total_analyses data) ;;
  Ok (PyFloat.mul q (PyFloat.of_Z 100)).

End Report.

(** ** Sample inputs *)

Module Examples.

(** 29.97 frames per second, as a binary64 number. *)
Definition fps_ntsc : float := S754_finite false 8435805052018360 (-48).

(** 0.25 frames per second. *)
Definition fps_quarter : float := PyFloat.dyadic 1 (-2).


(** A clock that advances by a second and a half between two readings. *)
Definition clock (k : nat) : float := PyFloat.dyadic (3 * Z.of_nat k) (-1).

(** A frames directory as the sampler leaves it, with a stray file. *)
Definition listing : list string :=
  ["frame_001_t3.0s.jpg"; "notes.txt"; "frame_000_t0.0s.jpg"].

(** A frames directory with a picture the sampler did not write. *)
Definition stray_listing : list string :=
  ["frame_000_t0.0s.jpg"; "cover.jpg"].

End Examples.

(* ================================================================== *)
(** * Part II: properties                                              *)
(* ================================================================== *)

(** ** Strings *)

Section StringFacts.

Import PyStr.

Lemma append_nil_r (s : string) : s ++ "" = s.
Proof. induction s as [|c t IH]; simpl; [reflexivity | now rewrite IH]. Qed.

Lemma append_assoc (a b c : string) : (a ++ b) ++ c = a ++ b ++ c.
Proof. induction a as [|x a IH]; simpl; [reflexivity | now rewrite IH]. Qed.

Lemma length_append (a b : string) :
  String.length (a ++ b) = (String.length a + String.length b)%nat.
Proof. induction a as [|x a IH]; simpl; [reflexivity | now rewrite IH]. Qed.

(** Two cuts of one string at the same position are the same cut. *)
Lemma append_inj (a a' b b' : string) :
  a ++ b = a' ++ b' -> String.length a = String.length a' -> a = a' /\ b = b'.
Proof.
  revert a'. induction a as [|x a IH]; intros [|y a'] H L; simpl in *;
    try discriminate.
  - now split.
  - injection H as -> H. destruct (IH a' H) as [-> ->]; [lia | now split].
Qed.

(** Two cuts of one string: one of the left parts extends the other. *)
Lemma append_eq_append (a b c d : string) :
  a ++ b = c ++ d ->
  (exists m, c = a ++ m /\ b = m ++ d) \/ (exists m, a = c ++ m /\ d = m ++ b).
Proof.
  revert c. induction a as [|x a IH]; intros c H; simpl in *.
  - left. now exists c.
  - destruct c as [|y c]; simpl in *.
    + right. now exists (String x a).
    + injection H as -> H. destruct (IH c H) as [[m [-> ->]] | [m [-> ->]]].
      * left. now exists m.
      * right. now exists m.
Qed.

Lemma startswith_spec (s p : string) :
  startswith s p = true <-> exists b, s = p ++ b.
Proof.
  revert s. induction p as [|a p IH]; intros s; simpl.
  - split; [intros _; now exists s | reflexivity].
  - destruct s as [|b s].
    + split; [discriminate | intros [t H]; discriminate].
    + rewrite andb_true_iff, Ascii.eqb_eq, IH. split.
      * intros [-> [t ->]]. now exists t.
      * intros [t H]. injection H as -> ->. split; [reflexivity | now exists t].
Qed.

Lemma contains_spec (sub s : string) :
  contains sub s = true <-> Substring sub s.
Proof.
  unfold Substring. induction s as [|c t IH].
  - simpl. rewrite orb_false_r, startswith_spec. split.
    + intros [b H]. now exists "", b.
    + intros [[|x a] [b H]]; [now exists b | discriminate].
  - cbn [contains]. rewrite orb_true_iff, startswith_spec, IH. split.
    + intros [[b H] | [a [b H]]].
      * now exists "", b.
      * exists (String c a), b. simpl. now rewrite H.
    + intros [[|x a] [b H]].
      * left. now exists b.
      * right. simpl in H. injection H as _ H. now exists a, b.
Qed.

Lemma contains_false (sub s : string) :
  contains sub s = false <-> ~ Substring sub s.
Proof.
  rewrite <- contains_spec. destruct (contains sub s); split; intros H;
    try reflexivity; try discriminate; now elim H.
Qed.

Lemma drop_append (a b : string) : drop (String.length a) (a ++ b) = b.
Proof. induction a as [|x a IH]; simpl; [now destruct b | exact IH]. Qed.

Lemma startswith_drop (s sep : string) :
  startswith s sep = true -> s = sep ++ drop (String.length sep) s.
Proof.
  intros H. apply startswith_spec in H as [r ->]. now rewrite drop_append.
Qed.

Lemma find_eq (sep s : string) :
  find sep s =
  if startswith s sep then Some ("", drop (String.length sep) s)
  else
    match s with
    | "" => None
    | String c t =>
        match find sep t with
        | Some (before, after) => Some (String c before, after)
        | None => None
        end
    end.
Proof. destruct s; reflexivity. Qed.

(** [find] cuts at an occurrence of the separator, and at the first one. *)
Lemma find_Some (sep s a b : string) :
  find sep s = Some (a, b) ->
  s = a ++ sep ++ b /\
  forall a' b', s = a' ++ sep ++ b' -> (String.length a <= String.length a')%nat.
Proof.
  revert a b. induction s as [|c t IH]; intros a b; rewrite find_eq.
  - destruct (startswith "" sep) eqn:E; [|discriminate].
    intros [= <- <-]. split; [|intros; simpl; lia].
    simpl. now apply startswith_drop.
  - destruct (startswith (String c t) sep) eqn:E.
    + intros [= <- <-]. split; [|intros; simpl; lia].
      simpl. now apply startswith_drop.
    + destruct (find sep t) as [[a0 b0]|] eqn:F; [|discriminate].
      intros [= <- <-]. destruct (IH a0 b0 eq_refl) as [-> M]. split.
      * reflexivity.
      * intros [|x a'] b' H.
        -- simpl in H. assert (startswith (String c (a0 ++ sep ++ b0)) sep = true)
             by (apply startswith_spec; now exists b').
           congruence.
        -- simpl in H. injection H as _ H. specialize (M a' b' H). simpl. lia.
Qed.

Lemma find_None (sep s : string) :
  find sep s = None -> ~ Substring sep s.
Proof.
  induction s as [|c t IH]; rewrite find_eq.
  - destruct (startswith "" sep) eqn:E; [discriminate|]. intros _ [a [b H]].
    destruct a; [|discriminate]. simpl in H.
    assert (startswith "" sep = true) by (apply startswith_spec; now exists b).
    congruence.
  - destruct (startswith (String c t) sep) eqn:E; [discriminate|].
    destruct (find sep t) as [[a0 b0]|] eqn:F; [discriminate|].
    intros _ [a [b H]]. destruct a as [|x a].
    + simpl in H.
      assert (startswith (String c t) sep = true)
        by (apply startswith_spec; now exists b).
      congruence.
    + simpl in H. injection H as _ H. apply IH; [reflexivity | now exists a, b].
Qed.

Lemma find_first (sep a b : string) :
  FirstAt sep a (a ++ sep ++ b) -> find sep (a ++ sep ++ b) = Some (a, b).
Proof.
  intros [_ M]. destruct (find sep (a ++ sep ++ b)) as [[a0 b0]|] eqn:F.
  - destruct (find_Some _ _ _ _ F) as [E M0].
    assert (L : String.length a0 = String.length a).
    { apply Nat.le_antisymm; [apply (M0 a b eq_refl) | apply (M a0 b0 E)]. }
    symmetry in E. destruct (append_inj _ _ _ _ E L) as [-> E'].
    destruct (append_inj sep sep b0 b E' eq_refl) as [_ ->]. reflexivity.
  - exfalso. apply (find_None _ _ F). now exists a, b.
Qed.

Lemma find_absent (sep s : string) :
  ~ Substring sep s -> find sep s = None.
Proof.
  intros N. destruct (find sep s) as [[a b]|] eqn:F; [|reflexivity].
  exfalso. apply N. destruct (find_Some _ _ _ _ F) as [E _]. now exists a, b.
Qed.

Lemma find_shorter (sep s a b : string) :
  sep <> "" -> find sep s = Some (a, b) ->
  (String.length b < String.length s)%nat.
Proof.
  intros N F. destruct (find_Some _ _ _ _ F) as [-> _].
  rewrite !length_append. destruct sep; [congruence | simpl; lia].
Qed.

(** More rounds than [split] allows itself change nothing. *)
Lemma split_fuel_any (sep : string) (f1 f2 : nat) (s : string) :
  sep <> "" -> (String.length s < f1)%nat -> (String.length s < f2)%nat ->
  split_fuel f1 sep s = split_fuel f2 sep s.
Proof.
  intros N. revert f2 s. induction f1 as [|f1 IH]; intros f2 s L1 L2; [lia|].
  destruct f2 as [|f2]; [lia|]. simpl.
  destruct (find sep s) as [[a b]|] eqn:F; [|reflexivity].
  pose proof (find_shorter _ _ _ _ N F). f_equal. apply IH; lia.
Qed.

Lemma split_fuel_enough (sep : string) (fuel : nat) (s : string) :
  sep <> "" -> (String.length s < fuel)%nat ->
  split_fuel fuel sep s = split sep s.
Proof. intros N L. apply split_fuel_any; [exact N | exact L | lia]. Qed.

Lemma split_absent (sep s : string) :
  ~ Substring sep s -> split sep s = [s].
Proof. intros N. unfold split. simpl. now rewrite (find_absent _ _ N). Qed.

Lemma split_first (sep a b : string) :
  sep <> "" -> FirstAt sep a (a ++ sep ++ b) ->
  split sep (a ++ sep ++ b) = a :: split sep b.
Proof.
  intros N H. unfold split at 1. simpl. rewrite (find_first _ _ _ H).
  f_equal. apply split_fuel_enough; [exact N|].
  rewrite !length_append. destruct sep; [congruence | simpl; lia].
Qed.

(** The first piece of a split: the text before the first separator. *)
Lemma split_head (sep s : string) :
  exists rest,
    split sep s =
    match find sep s with Some (a, _) => a | None => s end :: rest.
Proof.
  unfold split. simpl. destruct (find sep s) as [[a b]|]; eauto.
Qed.

Lemma FirstAt_find (sep s a b : string) :
  find sep s = Some (a, b) -> FirstAt sep a s.
Proof.
  intros F. destruct (find_Some _ _ _ _ F) as [E M]. split; [now exists b | exact M].
Qed.

End StringFacts.

(** ** The timestamp label of a frame file *)

Section TimestampFacts.

Import PyStr Harness.

Lemma timestamp_of_absent (name : string) :
  ~ Substring "_t" name -> timestamp_of name = Raise IndexError.
Proof.
  intros N. unfold timestamp_of. now rewrite (split_absent _ _ N).
Qed.

Lemma timestamp_of_present (name : string) :
  Substring "_t" name -> exists label, timestamp_of name = Ok label.
Proof.
  intros H. unfold timestamp_of, split at 1. simpl split_fuel.
  destruct (find "_t" name) as [[a b]|] eqn:F.
  - destruct (String.length name) as [|k] eqn:L.
    + destruct (find_Some _ _ _ _ F) as [-> _]. rewrite !length_append in L.
      simpl in L. lia.
    + simpl split_fuel.
      destruct (find "_t" b) as [[a1 b1]|]; cbn [item nth_error bind].
      * destruct (split_head "s.jpg" a1) as [r ->]. cbn. eauto.
      * destruct (split_head "s.jpg" b) as [r ->]. cbn. eauto.
  - exfalso. now apply (find_None _ _ F).
Qed.

(** A piece of "s.jpg" that starts a text beginning with "_t" is empty. *)
Lemma suffix_of_sjpg (m m' b post : string) :
  "s.jpg" = m ++ m' -> "_t" ++ b = m' ++ post -> m' = "".
Proof.
  intros H1 H2.
  destruct m as [|c1 [|c2 [|c3 [|c4 [|c5 [|c6 m]]]]]]; simpl in H1;
    try (injection H1 as; subst; simpl in H2; try discriminate; reflexivity).
  subst m'. discriminate.
Qed.

(** The text before the first "_t" of [mid ++ "s.jpg" ++ post] still starts
    with [mid ++ "s.jpg"], when [mid] has no "_t". *)
Lemma segment_keeps_sjpg (mid post a b : string) :
  ~ Substring "_t" mid ->
  mid ++ "s.jpg" ++ post = a ++ "_t" ++ b ->
  exists post', a = mid ++ "s.jpg" ++ post'.
Proof.
  intros N E.
  destruct (append_eq_append _ _ _ _ E) as [[m [-> E1]] | [m [E0 E1]]].
  - destruct (append_eq_append _ _ _ _ E1) as [[m' [-> E2]] | [m' [E3 E2]]].
    + now exists m'.
    + pose proof (suffix_of_sjpg _ _ _ _ E3 E2) as ->.
      rewrite append_nil_r in E3. subst m. now exists "".
  - exfalso. destruct m as [|c1 [|c2 m]]; simpl in E1; try discriminate.
    injection E1 as <- <- _. apply N. now exists a, m.
Qed.

Lemma timestamp_of_between (pre mid post : string) :
  FirstAt "_t" pre (pre ++ "_t" ++ mid ++ "s.jpg" ++ post) ->
  FirstAt "s.jpg" mid (mid ++ "s.jpg" ++ post) ->
  ~ Substring "_t" mid ->
  timestamp_of (pre ++ "_t" ++ mid ++ "s.jpg" ++ post) = Ok (mid ++ "s").
Proof.
  intros H1 H2 N. unfold timestamp_of.
  rewrite (split_first "_t" pre _ ltac:(discriminate) H1).
  destruct (split_head "_t" (mid ++ "s.jpg" ++ post)) as [r ->].
  cbn [item nth_error bind].
  destruct (find "_t" (mid ++ "s.jpg" ++ post)) as [[a b]|] eqn:F.
  - destruct (find_Some _ _ _ _ F) as [E _].
    destruct (segment_keeps_sjpg _ _ _ _ N E) as [post' ->].
    rewrite split_first; [reflexivity | discriminate |].
    split; [now exists post'|]. intros a' b' E'. apply (proj2 H2 a' (b' ++ "_t" ++ b)).
    rewrite E, E', !append_assoc. reflexivity.
  - rewrite split_first; [reflexivity | discriminate | exact H2].
Qed.

End TimestampFacts.

(** ** The analysis runner *)

Section RunnerFacts.

Import PyStr Harness.

Variable clock : nat -> float.

Lemma insert_sorted_perm (x : string) (l : list string) :
  Permutation (insert_sorted x l) (x :: l).
Proof.
  induction l as [|y l IH]; simpl; [reflexivity|].
  destruct (x <=? y)%string; [reflexivity|].
  rewrite IH. apply perm_swap.
Qed.

Lemma sorted_perm (l : list string) : Permutation (sorted l) l.
Proof.
  induction l as [|x l IH]; simpl; [reflexivity|].
  rewrite insert_sorted_perm. now constructor.
Qed.

Lemma in_frame_files (names : list string) (f : string) :
  In f (frame_files_of names) <-> In f names /\ endswith f ".jpg" = true.
Proof.
  unfold frame_files_of. split; intros H.
  - apply (Permutation_in _ (sorted_perm _)) in H.
    apply filter_In in H. exact H.
  - apply (Permutation_in _ (Permutation_sym (sorted_perm _))).
    apply filter_In. exact H.
Qed.

Lemma analyze_prompt_step (svc : MockLeapService) (path : string) (i : Z)
    (p : string) (tick : nat) :
  step_of svc path p (fst (analyze_prompt clock svc path i p tick)) /\
  step (fst (analyze_prompt clock svc path i p tick)) = i + 1.
Proof.
  unfold analyze_prompt, analyze_image, step_of.
  destruct (initialized svc); simpl; repeat split; try reflexivity.
  discriminate.
Qed.

Lemma analyze_prompts_steps (svc : MockLeapService) (path : string)
    (todo : list string) :
  forall (i : Z) (tick : nat) (acc : list AnalysisStep),
  exists new,
    fst (analyze_prompts clock svc path i todo tick acc) = (acc ++ new)%list /\
    Forall2 (step_of svc path) todo new /\
    map step new = map (fun k => i + 1 + Z.of_nat k) (seq 0 (List.length todo)).
Proof.
  induction todo as [|p todo IH]; intros i tick acc; simpl.
  - exists []. rewrite app_nil_r. repeat split. constructor.
  - destruct (analyze_prompt clock svc path i p tick) as [a tick'] eqn:E.
    destruct (analyze_prompt_step svc path i p tick) as [S1 S2].
    rewrite E in S1, S2. simpl in S1, S2.
    destruct (IH (i + 1) tick' (acc ++ [a])%list) as [new [E1 [F M]]].
    exists (a :: new). rewrite E1, <- app_assoc. repeat split.
    + now constructor.
    + simpl. rewrite S2, M, <- seq_shift, map_map. f_equal; [lia|].
      apply map_ext. intros k. lia.
Qed.

Lemma analyze_frame_Ok (svc : MockLeapService) (f : string) (tick : nat)
    (r : FrameResult) (tick' : nat) :
  analyze_frame clock svc f tick = Ok (r, tick') -> frame_of svc f r.
Proof.
  unfold analyze_frame. destruct (timestamp_of f) as [label|e] eqn:T;
    [|discriminate]. cbn [bind].
  destruct (analyze_prompts_steps svc (path_join frames_dir f) prompts 0 tick [])
    as [new [E [F M]]].
  destruct (analyze_prompts clock svc (path_join frames_dir f) 0 prompts tick [])
    as [an tk]. simpl in E. subst an. intros [= <- _].
  unfold frame_of. simpl. rewrite T. repeat split; assumption.
Qed.

Lemma analyze_frame_total (svc : MockLeapService) (f : string) (tick : nat) :
  Substring "_t" f -> exists r, analyze_frame clock svc f tick = Ok r.
Proof.
  intros H. destruct (timestamp_of_present f H) as [label T].
  unfold analyze_frame. rewrite T. cbn [bind].
  destruct (analyze_prompts clock svc (path_join frames_dir f) 0 prompts tick []).
  eauto.
Qed.

Lemma analyze_frame_raise (svc : MockLeapService) (f : string) (tick : nat) :
  ~ Substring "_t" f -> analyze_frame clock svc f tick = Raise IndexError.
Proof.
  intros H. unfold analyze_frame. now rewrite (timestamp_of_absent f H).
Qed.

Lemma analyze_frames_Ok (svc : MockLeapService) (files : list string) :
  forall (tick : nat) (acc res : list FrameResult) (tick' : nat),
  analyze_frames clock svc files tick acc = Ok (res, tick') ->
  exists new, res = (acc ++ new)%list /\ Forall2 (frame_of svc) files new.
Proof.
  induction files as [|f files IH]; intros tick acc res tick'; simpl.
  - intros [= <- _]. exists []. now rewrite app_nil_r.
  - destruct (analyze_frame clock svc f tick) as [[r tk]|e] eqn:E;
      [|discriminate]. cbn [bind fst snd]. intros H.
    destruct (IH _ _ _ _ H) as [new [-> F]]. exists (r :: new).
    rewrite <- app_assoc. split; [reflexivity|].
    constructor; [|exact F]. now apply (analyze_frame_Ok svc f tick r tk).
Qed.

Lemma analyze_frames_total (svc : MockLeapService) (files : list string) :
  Forall (Substring "_t") files ->
  forall (tick : nat) (acc : list FrameResult),
  exists r, analyze_frames clock svc files tick acc = Ok r.
Proof.
  induction 1 as [|f files Hf _ IH]; intros tick acc; simpl; [eauto|].
  destruct (analyze_frame_total svc f tick Hf) as [r ->]. cbn [bind]. apply IH.
Qed.

Lemma analyze_frames_raise (svc : MockLeapService) (files : list string) :
  Exists (fun f => ~ Substring "_t" f) files ->
  forall (tick : nat) (acc : list FrameResult),
  analyze_frames clock svc files tick acc = Raise IndexError.
Proof.
  induction files as [|f files IH]; intros H tick acc; [inversion H|]. simpl.
  destruct (contains "_t" f) eqn:C.
  - apply contains_spec in C.
    destruct (analyze_frame_total svc f tick C) as [r ->]. cbn [bind].
    apply IH. inversion H; subst; [contradiction | assumption].
  - apply contains_false in C. now rewrite (analyze_frame_raise svc f tick C).
Qed.

End RunnerFacts.

(** ** The category classifier and the question generator *)

Section ClassifierFacts.

Import PyStr Harness.

Lemma categories_NoDup : NoDup categories.
Proof.
  unfold categories. repeat constructor; simpl; intuition discriminate.
Qed.

Lemma get_analysis_type_in (r : string) : In (get_analysis_type r) categories.
Proof.
  unfold get_analysis_type, categories.
  destruct (any_in _ _); [simpl; tauto|].
  destruct (contains _ _); [simpl; tauto|].
  destruct (any_in _ _); [simpl; tauto|].
  destruct (any_in _ _); simpl; tauto.
Qed.

End ClassifierFacts.

(** C3: the Category Classifier is a total function into five distinct
    category strings; on the lower-cased response it answers the fastener
    category when "fastener", "bolt" or "screw" occurs, else the weld
    category when "weld" occurs, else the corrosion category when
    "corrosion" or "rust" occurs, else the pipe category when "pipe" or
    "flange" occurs, else the default; responses that agree up to letter
    case get the same category, and a response with both "bolt" and "weld"
    gets "Fatigue Analysis, Stress Concentration", not the weld category. *)
Theorem get_analysis_type_priority (r : string) :
  let l := PyStr.lower r in
  let fastener :=
    PyStr.Substring "fastener" l \/ PyStr.Substring "bolt" l \/
    PyStr.Substring "screw" l in
  let weld := PyStr.Substring "weld" l in
  let corrosion := PyStr.Substring "corrosion" l \/ PyStr.Substring "rust" l in
  let pipe := PyStr.Substring "pipe" l \/ PyStr.Substring "flange" l in
  let category := Harness.get_analysis_type r in
  NoDup Harness.categories /\
  In category Harness.categories /\
  (category = Harness.FATIGUE <-> fastener) /\
  (category = Harness.CRACK <-> ~ fastener /\ weld) /\
  (category = Harness.REMAINING_LIFE <-> ~ fastener /\ ~ weld /\ corrosion) /\
  (category = Harness.FLUID <->
     ~ fastener /\ ~ weld /\ ~ corrosion /\ pipe) /\
  (category = Harness.GENERAL <->
     ~ fastener /\ ~ weld /\ ~ corrosion /\ ~ pipe) /\
  (forall r', PyStr.lower r' = l -> Harness.get_analysis_type r' = category) /\
  (PyStr.Substring "bolt" l -> PyStr.Substring "weld" l ->
   category = "Fatigue Analysis, Stress Concentration" /\
   category <> Harness.CRACK).
Proof.
  intros l fastener weld corrosion pipe category.
  split; [apply categories_NoDup|].
  split; [apply get_analysis_type_in|].
  assert (Hcase : forall r', PyStr.lower r' = l ->
                             Harness.get_analysis_type r' = category).
  { intros r' E. unfold category, Harness.get_analysis_type. now rewrite E. }
  assert (Hboth : PyStr.Substring "bolt" l -> PyStr.Substring "weld" l ->
                  category = "Fatigue Analysis, Stress Concentration" /\
                  category <> Harness.CRACK).
  { intros Hb _. apply contains_spec in Hb.
    unfold category, Harness.get_analysis_type, Harness.any_in. fold l.
    cbn [existsb]. rewrite Hb, orb_true_r. cbn [orb].
    split; [reflexivity | discriminate]. }
  revert Hcase Hboth.
  subst fastener weld corrosion pipe category.
  unfold Harness.get_analysis_type, Harness.any_in. fold l.
  cbn [existsb]. rewrite <- !contains_spec, !orb_false_r, <- !orb_true_iff.
  generalize (PyStr.contains "fastener" l ||
              (PyStr.contains "bolt" l || PyStr.contains "screw" l))%bool,
             (PyStr.contains "weld" l),
             (PyStr.contains "corrosion" l || PyStr.contains "rust" l)%bool,
             (PyStr.contains "pipe" l || PyStr.contains "flange" l)%bool.
  intros f w c p Hcase Hboth.
  destruct f, w, c, p;
    (repeat match goal with |- _ /\ _ => split end);
    try exact Hcase; try exact Hboth;
    (split; intros; try reflexivity; try discriminate;
     intuition (try discriminate; try congruence)).
Qed.

Lemma get_analysis_type_priority_witness :
  Harness.get_analysis_type "Loose BOLT next to a cracked Weld" =
    "Fatigue Analysis, Stress Concentration" /\
  Harness.get_analysis_type "Loose BOLT next to a cracked Weld" <>
    Harness.CRACK.
Proof.
  destruct (get_analysis_type_priority "Loose BOLT next to a cracked Weld")
    as (_ & _ & _ & _ & _ & _ & _ & _ & H).
  apply H; apply contains_spec; reflexivity.
Defined.

(** C4: the Question Generator answers each of the four non-default
    categories with its own fixed question and ordered options, and the
    default category "General Structural Analysis" with no question; so on
    the classifier's outputs a question is missing exactly for the
    default category.  Being a function, it returns the same question and
    options whenever it is given the same category. *)
Theorem generate_question_categories :
  Harness.generate_question "Fatigue Analysis, Stress Concentration" =
    Some {| Harness.question :=
              "What is the primary loading condition for these fasteners?";
            Harness.options :=
              ["Static Tension"; "Cyclic (Vibration)"; "Shear"; "Unknown"] |} /\
  Harness.generate_question "Crack Propagation, Residual Stress Analysis" =
    Some {| Harness.question := "What welding process was likely used?";
            Harness.options :=
              ["MIG/GMAW"; "TIG/GTAW"; "Stick/SMAW"; "Unknown"] |} /\
  Harness.generate_question
      "Remaining Life Assessment, Material Degradation Study" =
    Some {| Harness.question := "What is the operational environment?";
            Harness.options :=
              ["Dry, Indoor"; "Humid, Outdoor"; "Marine/Salt-Spray";
               "Chemical Exposure"] |} /\
  Harness.generate_question "Fluid Dynamics, Pressure Drop Analysis" =
    Some {| Harness.question := "What is the typical operating pressure?";
            Harness.options :=
              ["Low (< 50 psi)"; "Medium (50-500 psi)"; "High (> 500 psi)";
               "Unknown"] |} /\
  Harness.generate_question "General Structural Analysis" = None /\
  (forall r : string,
     Harness.generate_question (Harness.get_analysis_type r) = None <->
     Harness.get_analysis_type r = "General Structural Analysis") /\
  (forall c : string,
     In c Harness.categories ->
     (exists q, Harness.generate_question c = Some q) <-> c <> Harness.GENERAL).
Proof.
  assert (K : forall c : string, In c Harness.categories ->
            (Harness.generate_question c = None <-> c = Harness.GENERAL) /\
            ((exists q, Harness.generate_question c = Some q) <->
             c <> Harness.GENERAL)).
  { intros c H. simpl in H.
    destruct H as [<- | [<- | [<- | [<- | [<- | []]]]]]; vm_compute;
      (split; split; intros H; try discriminate; try reflexivity; eauto;
       try (now elim H); try (destruct H; discriminate)). }
  repeat split; try reflexivity.
  - apply (K _ (get_analysis_type_in r)).
  - apply (K _ (get_analysis_type_in r)).
  - apply (K c H).
  - apply (K c H).
Qed.

Lemma generate_question_categories_witness :
  (exists q, Harness.generate_question Harness.FLUID = Some q) <->
  Harness.FLUID <> Harness.GENERAL.
Proof.
  apply (proj2 (proj2 (proj2 (proj2 (proj2 (proj2
           generate_question_categories)))))).
  simpl. tauto.
Defined.

(** ** Runs of the harness *)

Section RunFacts.

Import PyStr Harness.

Variable clock : nat -> float.

Lemma run_with_Completed (svc : MockLeapService) (tick : nat)
    (listing : option (list string)) (report : RunReport) :
  run_with clock svc tick listing = Ok (Completed report) ->
  exists names,
    listing = Some names /\
    frame_files_of names <> [] /\
    Forall2 (frame_of svc) (frame_files_of names) (results report) /\
    total_frames_analyzed report =
      Z.of_nat (List.length (frame_files_of names)) /\
    prompts_per_frame report = 5 /\
    model_load_time_s report = model_load_time svc.
Proof.
  unfold run_with. destruct listing as [names|]; [|intros H; discriminate H].
  destruct (frame_files_of names) as [|f files] eqn:E;
    [intros H; discriminate H|].
  destruct (analyze_frames clock svc (f :: files) tick []) as [[res tk]|e] eqn:A;
    [|intros H; discriminate H].
  cbn [bind fst]. intros [= <-]. exists names. rewrite E.
  cbn [results total_frames_analyzed prompts_per_frame model_load_time_s].
  destruct (analyze_frames_Ok clock svc _ _ _ _ _ A) as [new [-> F]].
  simpl app. repeat split; try assumption; try discriminate; reflexivity.
Qed.

Lemma run_with_total (svc : MockLeapService) (tick : nat)
    (names : list string) :
  frame_files_of names <> [] ->
  Forall (Substring "_t") (frame_files_of names) ->
  exists report, run_with clock svc tick (Some names) = Ok (Completed report).
Proof.
  intros N G. unfold run_with.
  destruct (frame_files_of names) as [|f files] eqn:E; [congruence|].
  destruct (analyze_frames_total clock svc _ G tick []) as [r ->].
  cbn [bind]. eauto.
Qed.

Lemma run_with_raise (svc : MockLeapService) (tick : nat)
    (names : list string) (f : string) :
  In f names -> endswith f ".jpg" = true -> ~ Substring "_t" f ->
  run_with clock svc tick (Some names) = Raise IndexError.
Proof.
  intros I J N. unfold run_with.
  assert (M : In f (frame_files_of names)) by (apply in_frame_files; now split).
  assert (X : Exists (fun f => ~ Substring "_t" f) (frame_files_of names))
    by (apply Exists_exists; now exists f).
  destruct (frame_files_of names) as [|g files] eqn:E; [destruct M|].
  now rewrite (analyze_frames_raise clock svc _ X).
Qed.

Lemma step_of_prompts (svc : MockLeapService) (path : string)
    (ps : list string) (l : list AnalysisStep) :
  Forall2 (step_of svc path) ps l ->
  List.length l = List.length ps /\ map prompt l = ps.
Proof.
  induction 1 as [|p a ps l H _ [IH1 IH2]]; simpl; [now split|].
  destruct H as [-> _]. now rewrite IH1, IH2.
Qed.

Lemma frames_count (svc : MockLeapService) (files : list string)
    (res : list FrameResult) :
  Forall2 (frame_of svc) files res ->
  List.length res = List.length files /\
  List.length (flat_map analyses res) = (List.length files * 5)%nat.
Proof.
  induction 1 as [|f r files res H _ [IH1 IH2]]; simpl; [now split|].
  destruct H as (_ & _ & H & _). apply step_of_prompts in H as [H _].
  rewrite length_app, IH1, IH2, H. simpl. split; lia.
Qed.

End RunFacts.

(** C8: the report a completed run serialises has [prompts_per_frame] 5,
    one FrameResult per analysed frame, [total_frames * prompts_per_frame]
    AnalysisStep entries in all, and in every FrameResult exactly
    [prompts_per_frame] analyses, in prompt order, numbered 1 to 5. *)
Theorem run_report_shape (clock : nat -> float)
    (listing : option (list string)) (report : Harness.RunReport) :
  Harness.run_progressive_analysis_test clock listing =
    Ok (Harness.Completed report) ->
  Harness.prompts_per_frame report = 5 /\
  Harness.total_frames_analyzed report =
    Z.of_nat (List.length (Harness.results report)) /\
  Z.of_nat (List.length (flat_map Harness.analyses (Harness.results report))) =
    Harness.total_frames_analyzed report * Harness.prompts_per_frame report /\
  Forall
    (fun r =>
       Z.of_nat (List.length (Harness.analyses r)) =
         Harness.prompts_per_frame report /\
       map Harness.prompt (Harness.analyses r) = Harness.prompts /\
       map Harness.step (Harness.analyses r) = [1; 2; 3; 4; 5])
    (Harness.results report).
Proof.
  unfold Harness.run_progressive_analysis_test. cbn [Harness.initialize].
  intros H.
  destruct (run_with_Completed clock _ _ _ _ H)
    as (names & _ & _ & F & T & P & _).
  destruct (frames_count _ _ _ F) as [L1 L2].
  rewrite P, T, L1, L2. repeat split; try lia.
  clear - F. induction F as [|f r files res H _ IH]; constructor; [|exact IH].
  destruct H as (_ & _ & H & S). apply step_of_prompts in H as [H1 H2].
  rewrite H1. now repeat split.
Qed.

(** ** Floats *)

Section FloatFacts.

Import PyFloat.

Lemma div_eucl_shift (p : positive) :
  Z.div_eucl (Z.shiftl (Zpos p) 53) (Zpos p) = (2 ^ 53, 0).
Proof.
  rewrite Z.shiftl_mul_pow2 by lia.
  pose proof (Z.div_eucl_eq (Zpos p * 2 ^ 53) (Zpos p) ltac:(lia)) as E.
  pose proof (Z.mod_pos_bound (Zpos p * 2 ^ 53) (Zpos p) ltac:(lia)) as B.
  unfold Z.modulo in B.
  destruct (Z.div_eucl (Zpos p * 2 ^ 53) (Zpos p)) as [q r].
  assert (r = 0 /\ q = 2 ^ 53) as [-> ->]; [|reflexivity].
  assert (Zpos p * (2 ^ 53 - q) = r) by lia.
  assert (2 ^ 53 - q = 0) by nia. split; nia.
Qed.

Lemma div_core_self (p : positive) :
  SFdiv_core_binary prec emax (Zpos p) 0 (Zpos p) 0 = (2 ^ 53, -53, loc_Exact).
Proof.
  unfold SFdiv_core_binary.
  set (d := Zdigits2 (Z.pos p) + 0 - (Zdigits2 (Z.pos p) + 0)).
  assert (E : d = 0) by (unfold d; lia). rewrite E.
  change (IntDef.Z.min (fexp prec emax 0) (0 - 0)) with (-53).
  change (0 - 0 - -53) with 53. cbv beta iota zeta.
  change (IntDef.Z.div_eucl (IntDef.Z.shiftl (Z.pos p) 53) (Z.pos p))
    with (Z.div_eucl (Z.shiftl (Z.pos p) 53) (Z.pos p)).
  rewrite div_eucl_shift. unfold new_location.
  destruct (IntDef.Z.even (Z.pos p)); reflexivity.
Qed.

(** A positive integer divided by itself is 1.0. *)
Lemma int_truediv_self (n : Z) : 0 < n -> int_truediv n n = Ok (of_Z 1).
Proof.
  intros H. destruct n as [|p|p]; try lia. unfold int_truediv.
  replace (Z.pos p =? 0) with false by reflexivity.
  cbn [exact SFdiv]. rewrite div_core_self. reflexivity.
Qed.

End FloatFacts.

Section FloatFacts2.

Import PyFloat.







Lemma Qtrunc_ge_1 (q : Q) : 1 <= Qtrunc q <-> (1 <= q)%Q.
Proof.
  unfold Qtrunc. destruct (Qle_bool 0 q) eqn:S.
  - split; intros H.
    + apply Qle_trans with (inject_Z (Qfloor q)); [|apply Qfloor_le].
      change 1%Q with (inject_Z 1). now rewrite <- Zle_Qle.
    + change 1 with (Qfloor 1). now apply Qfloor_resp_le.
  - assert (N : ~ (0 <= q)%Q) by (rewrite <- Qle_bool_iff; congruence).
    apply Qnot_le_lt in N. split; intros H.
    + exfalso. assert (Qceiling q <= Qceiling 0)
        by (apply Qceiling_resp_le, Qlt_le_weak, N).
      change (Qceiling 0) with 0 in *. lia.
    + exfalso. apply (Qlt_irrefl 1).
      apply Qle_lt_trans with q; [exact H|].
      apply Qlt_trans with 0%Q; [exact N | reflexivity].
Qed.

Lemma Qtrunc_floor (q : Q) :
  (0 <= q)%Q ->
  (inject_Z (Qtrunc q) <= q)%Q /\ (q < inject_Z (Qtrunc q + 1))%Q.
Proof.
  intros H. unfold Qtrunc. apply Qle_bool_iff in H. rewrite H.
  split; [apply Qfloor_le | apply Qlt_floor].
Qed.

(** [int(x)] is the integer part of the number [x] denotes. *)
Lemma to_int_value (x : float) :
  is_finite x = true -> to_int x = Ok (Qtrunc (value x)).
Proof.
  destruct x as [s|s| |s m e]; try discriminate; intros _; try reflexivity.
  unfold to_int, value. f_equal. destruct e as [|e|e].
  - unfold Qtrunc. destruct (Qle_bool _ _); [rewrite Qfloor_Z|rewrite Qceiling_Z];
      now rewrite Z.shiftl_0_r, Z.mul_1_r.
  - rewrite Z.shiftl_mul_pow2 by lia. unfold Qtrunc.
    destruct (Qle_bool _ _); [rewrite Qfloor_Z|rewrite Qceiling_Z]; reflexivity.
  - change (Z.shiftl (Zpos m) (Zneg e)) with (Z.shiftr (Zpos m) (Zpos e)).
    rewrite Z.shiftr_div_pow2 by lia. rewrite <- Pos2Z.inj_pow.
    unfold Qtrunc. destruct s; cbn [cond_Zopp].
    + replace (Qle_bool 0 (Zneg m # 2 ^ e)) with false by reflexivity.
      unfold Qceiling, Qfloor. cbn [Qopp Qnum Qden Z.opp]. reflexivity.
    + replace (Qle_bool 0 (Zpos m # 2 ^ e)) with true by reflexivity.
      reflexivity.
Qed.




End FloatFacts2.

(** ** The frame sampler *)

Section SamplerFacts.

Import PyFloat ExtractFrames.









End SamplerFacts.

(** C1 (as amended): the stride is [int(fps * interval)], the integer part
    of the float product taken towards zero; it never exceeds a
    non-negative product, and it is at least 1 exactly when the product is
    at least 1. *)
Theorem frame_interval_truncates (fps : float) (interval_seconds : pynum)
    (interval : float) :
  as_float interval_seconds = Ok interval ->
  PyFloat.is_finite (PyFloat.mul fps interval) = true ->
  let product := PyFloat.value (PyFloat.mul fps interval) in
  let stride := PyFloat.Qtrunc product in
  ExtractFrames.frame_interval_of fps interval_seconds = Ok stride /\
  ((0 <= product)%Q ->
   (inject_Z stride <= product)%Q /\ (product < inject_Z (stride + 1))%Q) /\
  (1 <= stride <-> (1 <= product)%Q).
Proof.
  intros A F product stride. unfold ExtractFrames.frame_interval_of.
  rewrite A. cbn [bind]. split; [now apply to_int_value|].
  split; [apply Qtrunc_floor | apply Qtrunc_ge_1].
Qed.

Lemma frame_interval_truncates_witness :
  ExtractFrames.frame_interval_of Examples.fps_ntsc (PyInt 3) = Ok 89 /\
  (1 <= 89 <->
   (1 <= PyFloat.value (PyFloat.mul Examples.fps_ntsc (PyFloat.of_Z 3)))%Q).
Proof.
  destruct (frame_interval_truncates Examples.fps_ntsc (PyInt 3)
              (PyFloat.of_Z 3) eq_refl eq_refl) as (H1 & _ & H2).
  split; [exact H1 | exact H2].
Defined.

(** C1 as stated fails: at 0.25 frames per second and an interval of 3
    seconds the product is 0.75, [round] gives 1 and the stride is 0, which
    is not at least 1; at 29.97 frames per second the product is 89.91,
    [round] gives 90 and the stride is 89. *)
Lemma frame_interval_not_round :
  ExtractFrames.frame_interval_of Examples.fps_quarter (PyInt 3) = Ok 0 /\
  ExtractFrames.spec_stride Examples.fps_quarter (PyInt 3) = Ok 1 /\
  ~ 1 <= 0 /\
  ExtractFrames.frame_interval_of Examples.fps_ntsc (PyInt 3) = Ok 89 /\
  ExtractFrames.spec_stride Examples.fps_ntsc (PyInt 3) = Ok 90.
Proof. repeat split; try reflexivity. lia. Qed.

(** With a stride of 0 the first frame read stops the sampler: the
    remainder [frame_count % frame_interval] divides by zero. *)
Remark zero_stride_raises (fps : float) (output_dir : string)
    (frame : ExtractFrames.image) (frames : list ExtractFrames.image) :
  ExtractFrames.sample_loop fps output_dir 0 (frame :: frames)
    ExtractFrames.sampler_start = Raise ZeroDivisionError.
Proof. reflexivity. Qed.




(** ** The report generator *)

Lemma verdicts_differ : Report.YES <> Report.NO.
Proof. intros H. apply String.eqb_eq in H. vm_compute in H. discriminate H. Qed.

Lemma blocks_differ : Report.optimization_needed <> Report.looks_good.
Proof.
  intros H. apply (f_equal (@List.length string)) in H.
  vm_compute in H. discriminate H.
Qed.

Lemma compare_cont_swap (p q : positive) :
  PosDef.Pos.compare_cont Eq q p = CompOpp (PosDef.Pos.compare_cont Eq p q).
Proof. symmetry. exact (Pos.compare_cont_antisym p q Eq). Qed.

(** [x < y] excludes [y < x]. *)
Lemma ltb_asym (x y : float) : SFltb x y = true -> SFltb y x = false.
Proof.
  unfold SFltb.
  destruct x as [sx|sx| |sx mx ex], y as [sy|sy| |sy my ey]; cbn [SFcompare];
    try reflexivity; try discriminate;
    try (destruct sx; reflexivity || discriminate);
    try (destruct sy; reflexivity || discriminate);
    try (destruct sx, sy; reflexivity || discriminate).
  rewrite (Z.compare_antisym ex ey), (compare_cont_swap mx my).
  destruct sx, sy; try reflexivity; try discriminate;
    destruct (ex ?= ey); cbn [CompOpp]; try reflexivity; try discriminate;
    destruct (PosDef.Pos.compare_cont Eq mx my); cbn [CompOpp];
    reflexivity || discriminate.
Qed.



(** C6, at the threshold: a pooled mean of 1200 ms gives a projection of
    exactly 3000 ms; the verdict printed is NO, and the recommendation
    block printed is "Performance looks good", not "Performance
    Optimization Needed".  Away from 3000 (and from NaN) the two tests
    agree: the block is "Optimization Needed" exactly when the projection
    is strictly greater than 3000. *)
Theorem recommendation_at_threshold :
  Report.projected_mobile_avg (PyFloat (PyFloat.of_Z 1200)) =
    Ok (PyFloat.of_Z 3000) /\
  Report.verdict (PyFloat.of_Z 3000) = Report.NO /\
  Report.recommendation_lines (PyFloat.of_Z 3000) = Report.looks_good /\
  (forall projected : float,
     (Report.recommendation_lines projected = Report.optimization_needed <->
      PyFloat.gtb projected (PyFloat.of_Z 3000) = true) /\
     (Report.verdict projected = Report.YES ->
      Report.recommendation_lines projected = Report.looks_good)).
Proof.
  split; [reflexivity|]. split; [reflexivity|]. split; [reflexivity|].
  intros projected. split.
  - unfold Report.recommendation_lines, Report.over_target, Report.throttle_ms.
    destruct (PyFloat.gtb _ _); split; intros H; try reflexivity.
    + symmetry in H. elim (blocks_differ H).
    + discriminate H.
  - unfold Report.verdict, Report.meets_target, Report.throttle_ms.
    destruct (PyFloat.ltb projected (PyFloat.of_Z 3000)) eqn:L; intros H.
    + unfold Report.recommendation_lines, Report.over_target,
        Report.throttle_ms. unfold PyFloat.gtb. now rewrite (ltb_asym _ _ L).
    + symmetry in H. elim (verdicts_differ H).
Qed.

(** ** Runs: the properties *)

Lemma run_report_shape_witness :
  exists report,
    Harness.run_progressive_analysis_test Examples.clock
      (Some Examples.listing) = Ok (Harness.Completed report) /\
    Harness.total_frames_analyzed report = 2 /\
    Z.of_nat (List.length (flat_map Harness.analyses (Harness.results report)))
      = 2 * 5.
Proof.
  eexists. split; [vm_compute; reflexivity|].
  match goal with
  | |- Harness.total_frames_analyzed ?r = _ /\ _ =>
      destruct (run_report_shape Examples.clock (Some Examples.listing) r)
        as (P & T & A & _)
  end.
  - vm_compute. reflexivity.
  - split; [reflexivity|]. rewrite A, P. reflexivity.
Defined.

(** C7: a service that has not been initialised answers every analysis
    request with the sentinel "Error: LEAP SDK not initialized" and the
    elapsed time 0, reading no clock; the runner treats the answer as any
    other: on a directory whose frame files all carry a "_t" the run
    completes, and every step records the sentinel as its response, 0 as
    its time, the default category and no question. *)
Theorem uninitialized_service_propagates (clock : nat -> float)
    (svc : Harness.MockLeapService) (tick : nat) :
  Harness.initialized svc = false ->
  (forall image_path prompt : string,
     Harness.analyze_image clock svc tick image_path prompt =
       ("Error: LEAP SDK not initialized", PyInt 0, tick)) /\
  (forall names : list string,
     Harness.frame_files_of names <> [] ->
     Forall (PyStr.Substring "_t") (Harness.frame_files_of names) ->
     exists report,
       Harness.run_with clock svc tick (Some names) =
         Ok (Harness.Completed report) /\
       Harness.total_frames_analyzed report =
         Z.of_nat (List.length (Harness.frame_files_of names)) /\
       List.length (Harness.results report) =
         List.length (Harness.frame_files_of names) /\
       Forall
         (fun r =>
            List.length (Harness.analyses r) = 5%nat /\
            Forall
              (fun a =>
                 Harness.response a = Harness.NOT_INITIALIZED /\
                 Harness.inference_time_ms a = PyInt 0 /\
                 Harness.analysis_type a = "General Structural Analysis" /\
                 Harness.generated_question a = None)
              (Harness.analyses r))
         (Harness.results report)).
Proof.
  intros U. split.
  - intros image_path prompt. unfold Harness.analyze_image. now rewrite U.
  - intros names NE G.
    destruct (run_with_total clock svc tick names NE G) as [report R].
    exists report. split; [exact R|].
    destruct (run_with_Completed clock _ _ _ _ R)
      as (names' & [= <-] & _ & F & T & _ & _).
    split; [exact T|].
    split; [exact (proj1 (frames_count _ _ _ F))|].
    clear - U F. induction F as [|f r files res H _ IH]; constructor; [|exact IH].
    destruct H as (_ & _ & H & _).
    split; [exact (proj1 (step_of_prompts _ _ _ _ H))|].
    clear - U H. induction H as [|p a ps l H _ IH]; constructor; [|exact IH].
    destruct H as (_ & R & I & A & Q). rewrite U in R.
    split; [exact R|]. split; [exact (I U)|].
    rewrite R in A. rewrite A in Q. split; [exact A | exact Q].
Qed.

Lemma uninitialized_service_propagates_witness :
  Harness.analyze_image Examples.clock Harness.new_service 0
    "extracted_frames/frame_000_t0.0s.jpg"
    "Describe the overall system or machine in this image." =
    ("Error: LEAP SDK not initialized", PyInt 0, 0%nat) /\
  exists report,
    Harness.run_with Examples.clock Harness.new_service 0
      (Some Examples.listing) = Ok (Harness.Completed report) /\
    Harness.total_frames_analyzed report = 2.
Proof.
  destruct (uninitialized_service_propagates Examples.clock
              Harness.new_service 0 eq_refl) as [A R].
  split; [apply A|].
  destruct (R Examples.listing) as (report & E & T & _).
  - vm_compute. discriminate.
  - vm_compute. repeat constructor.
    + now exists "frame_000", "0.0s.jpg".
    + now exists "frame_001", "3.0s.jpg".
  - exists report. split; [exact E | exact T].
Defined.

Section PromptFacts.

Import PyStr Harness.

Lemma canned_have_bolt : Forall (fun r => Substring "bolt" (lower r)) responses.
Proof. repeat constructor; apply contains_spec; vm_compute; reflexivity. Qed.

Lemma not_unable (r : string) : In r responses -> r <> UNABLE.
Proof.
  intros I E. subst r. simpl in I.
  repeat (destruct I as [I|I];
          [apply String.eqb_eq in I; vm_compute in I; discriminate I|]).
  exact I.
Qed.

(** What an initialised service records for the five prompts. *)
Lemma steps_initialized (svc : MockLeapService) (path : string)
    (l : list AnalysisStep) :
  initialized svc = true ->
  Forall2 (step_of svc path) prompts l ->
  map response l =
    [response_overall; response_component; response_connections;
     response_condition; response_component] /\
  Forall
    (fun a =>
       response a <> UNABLE /\ analysis_type a = FATIGUE /\
       generated_question a = Some fastener_question) l.
Proof.
  intros I F. unfold prompts in F.
  assert (K : forall p a, step_of svc path p a ->
              In (_generate_mock_response p path) responses ->
              get_analysis_type (_generate_mock_response p path) = FATIGUE ->
              response a = _generate_mock_response p path /\
              response a <> UNABLE /\ analysis_type a = FATIGUE /\
              generated_question a = Some fastener_question).
  { intros p a (_ & R & _ & A & Q) M G. rewrite I in R. rewrite R in A.
    rewrite A, G in Q. rewrite G in A.
    repeat split; try assumption. rewrite R. now apply not_unable. }
  inversion F as [|p1 a1 ps1 l1 H1 F1]; subst; clear F.
  inversion F1 as [|p2 a2 ps2 l2 H2 F2]; subst; clear F1.
  inversion F2 as [|p3 a3 ps3 l3 H3 F3]; subst; clear F2.
  inversion F3 as [|p4 a4 ps4 l4 H4 F4]; subst; clear F3.
  inversion F4 as [|p5 a5 ps5 l5 H5 F5]; subst; clear F4.
  inversion F5; subst; clear F5.
  apply K in H1 as (R1 & G1); [|vm_compute; tauto | vm_compute; reflexivity].
  apply K in H2 as (R2 & G2); [|vm_compute; tauto | vm_compute; reflexivity].
  apply K in H3 as (R3 & G3); [|vm_compute; tauto | vm_compute; reflexivity].
  apply K in H4 as (R4 & G4); [|vm_compute; tauto | vm_compute; reflexivity].
  apply K in H5 as (R5 & G5); [|vm_compute; tauto | vm_compute; reflexivity].
  split.
  - cbn [map]. rewrite R1, R2, R3, R4, R5. reflexivity.
  - repeat (constructor; [assumption|]). constructor.
Qed.

End PromptFacts.

Section QuestionStats.

Import Harness Report.

Lemma count_fastener (l : list AnalysisStep) :
  Forall (fun a => generated_question a = Some fastener_question) l ->
  forall (n : Z) (u : set string),
  u = [] \/ u = [question fastener_question] ->
  fold_left count_question l (n, u) =
    (n + Z.of_nat (List.length l), match l with [] => u | _ => [question fastener_question] end).
Proof.
  induction 1 as [|a l H _ IH]; intros n u U.
  - simpl. now rewrite Z.add_0_r.
  - cbn [fold_left]. unfold count_question at 2. rewrite H. cbn [fst snd].
    assert (E : set_add string_dec (question fastener_question) u =
                [question fastener_question])
      by (destruct U as [-> | ->]; reflexivity).
    rewrite E, IH by now right.
    f_equal; [cbn [List.length]; lia | now destruct l].
Qed.

Lemma stats_fastener (res : list FrameResult) :
  Forall (fun r => List.length (analyses r) = 5%nat /\
          Forall (fun a => generated_question a = Some fastener_question)
            (analyses r))
    res ->
  forall (n : Z) (u : set string),
  u = [] \/ u = [question fastener_question] ->
  fold_left (fun acc r => fold_left count_question (analyses r) acc) res (n, u) =
    (n + 5 * Z.of_nat (List.length res), match res with [] => u | _ => [question fastener_question] end).
Proof.
  induction 1 as [|r res [L H] _ IH]; intros n u U.
  - simpl. now rewrite Z.add_0_r.
  - cbn [fold_left]. rewrite (count_fastener _ H n u U), L.
    destruct (analyses r) as [|a l]; [discriminate L|].
    rewrite IH by now right.
    f_equal; [cbn [List.length]; lia | now destruct res].
Qed.

End QuestionStats.

(** C9: the fifth prompt contains both "component" and "summary" and is
    answered with the component description, the test for "component"
    coming first; all five canned responses contain "bolt".  So in every
    completed run each frame records the system, component, connection,
    condition and component descriptions, never the "Unable to analyze"
    fallback, and every step has the category "Fatigue Analysis, Stress
    Concentration" and the fastener question: the report counts as many
    questions as analyses, one unique question, and a generation rate of
    100. *)
Theorem five_prompts_fastener (clock : nat -> float)
    (listing : option (list string)) (report : Harness.RunReport) :
  Harness.run_progressive_analysis_test clock listing =
    Ok (Harness.Completed report) ->
  let fifth := nth 4 Harness.prompts "" in
  PyStr.Substring "component" (PyStr.lower fifth) /\
  PyStr.Substring "summary" (PyStr.lower fifth) /\
  (forall image_path : string,
     Harness._generate_mock_response fifth image_path =
       Harness.response_component) /\
  Forall (fun r => PyStr.Substring "bolt" (PyStr.lower r)) Harness.responses /\
  Forall
    (fun r =>
       map Harness.response (Harness.analyses r) =
         [Harness.response_overall; Harness.response_component;
          Harness.response_connections; Harness.response_condition;
          Harness.response_component] /\
       Forall
         (fun a =>
            Harness.response a <> Harness.UNABLE /\
            Harness.analysis_type a = "Fatigue Analysis, Stress Concentration" /\
            Harness.generated_question a = Some Harness.fastener_question)
         (Harness.analyses r))
    (Harness.results report) /\
  Report.questions_generated report = Report.total_analyses report /\
  Report.unique_questions report = 1 /\
  Report.generation_rate report = Ok (PyFloat.of_Z 100).
Proof.
  intros R fifth.
  split; [apply contains_spec; vm_compute; reflexivity|].
  split; [apply contains_spec; vm_compute; reflexivity|].
  split; [intros image_path; reflexivity|].
  split; [exact canned_have_bolt|].
  unfold Harness.run_progressive_analysis_test in R.
  cbn [Harness.initialize] in R.
  destruct (run_with_Completed clock _ _ _ _ R)
    as (names & _ & NE & F & T & P & _).
  destruct (frames_count _ _ _ F) as [L _].
  assert (G : Forall
    (fun r =>
       map Harness.response (Harness.analyses r) =
         [Harness.response_overall; Harness.response_component;
          Harness.response_connections; Harness.response_condition;
          Harness.response_component] /\
       Forall
         (fun a =>
            Harness.response a <> Harness.UNABLE /\
            Harness.analysis_type a = Harness.FATIGUE /\
            Harness.generated_question a = Some Harness.fastener_question)
         (Harness.analyses r))
    (Harness.results report)).
  { clear - F. induction F as [|f r files res H _ IH]; constructor; [|exact IH].
    destruct H as (_ & _ & H & _).
    eapply steps_initialized; [|exact H]. reflexivity. }
  split; [exact G|].
  assert (S : Report.question_stats report =
              (0 + 5 * Z.of_nat (List.length (Harness.results report)),
               [Harness.question Harness.fastener_question])).
  { unfold Report.question_stats. rewrite stats_fastener.
    - destruct (Harness.results report) as [|r res]; [|reflexivity].
      destruct (Harness.frame_files_of names); [congruence | discriminate L].
    - clear - G. induction G as [|r res [M H] _ IH]; constructor; [|exact IH].
      split.
      + rewrite <- (length_map Harness.response), M. reflexivity.
      + clear - H. induction H as [|a l (_ & _ & H) _ IH]; constructor; assumption.
    - now left. }
  assert (N : 0 < Z.of_nat (List.length (Harness.frame_files_of names))).
  { destruct (Harness.frame_files_of names); [congruence | cbn; lia]. }
  assert (E : Report.questions_generated report = Report.total_analyses report).
  { unfold Report.questions_generated, Report.total_analyses.
    rewrite S, T, P, L. cbn [fst]. lia. }
  split; [exact E|].
  split; [unfold Report.unique_questions; now rewrite S|].
  unfold Report.generation_rate. rewrite E, int_truediv_self.
  - reflexivity.
  - unfold Report.total_analyses. rewrite T, P. lia.
Qed.

Lemma five_prompts_fastener_witness :
  exists report,
    Harness.run_progressive_analysis_test Examples.clock
      (Some Examples.listing) = Ok (Harness.Completed report) /\
    Report.questions_generated report = 10 /\
    Report.unique_questions report = 1 /\
    Report.generation_rate report = Ok (PyFloat.of_Z 100).
Proof.
  eexists. split; [vm_compute; reflexivity|].
  match goal with
  | |- Report.questions_generated ?r = _ /\ _ =>
      destruct (five_prompts_fastener Examples.clock (Some Examples.listing) r)
        as (_ & _ & _ & _ & _ & G & U & R)
  end.
  - vm_compute. reflexivity.
  - split; [rewrite G; reflexivity|]. split; [exact U | exact R].
Defined.

(** C10 (as amended): the timestamp label of a FrameResult is computed from
    the file name alone.  When no further "_t" stands between the first
    "_t" and the "s.jpg" that follows it, the label is the text between
    them with "s" appended.  A name with no "_t" makes the extraction raise
    IndexError, and a directory holding such a .jpg file makes the whole
    run end with that exception, not with the printed-message return. *)
Theorem timestamp_label_from_filename (clock : nat -> float) :
  (forall (listing : option (list string)) (report : Harness.RunReport),
     Harness.run_progressive_analysis_test clock listing =
       Ok (Harness.Completed report) ->
     Forall
       (fun r => Harness.timestamp_of (Harness.frame r) =
                   Ok (Harness.timestamp r))
       (Harness.results report)) /\
  (forall pre mid post : string,
     PyStr.FirstAt "_t" pre (pre ++ "_t" ++ mid ++ "s.jpg" ++ post) ->
     PyStr.FirstAt "s.jpg" mid (mid ++ "s.jpg" ++ post) ->
     ~ PyStr.Substring "_t" mid ->
     Harness.timestamp_of (pre ++ "_t" ++ mid ++ "s.jpg" ++ post) =
       Ok (mid ++ "s")) /\
  (forall name : string,
     ~ PyStr.Substring "_t" name ->
     Harness.timestamp_of name = Raise IndexError) /\
  (forall (names : list string) (f : string),
     In f names -> PyStr.endswith f ".jpg" = true ->
     ~ PyStr.Substring "_t" f ->
     Harness.run_progressive_analysis_test clock (Some names) =
       Raise IndexError).
Proof.
  split; [|split; [|split]].
  - intros listing report R.
    unfold Harness.run_progressive_analysis_test in R.
    cbn [Harness.initialize] in R.
    destruct (run_with_Completed clock _ _ _ _ R) as (names & _ & _ & F & _).
    clear - F. induction F as [|f r files res H _ IH]; constructor; [|exact IH].
    destruct H as (E & T & _). now rewrite E.
  - exact timestamp_of_between.
  - exact timestamp_of_absent.
  - intros names f I J N. unfold Harness.run_progressive_analysis_test.
    cbn [Harness.initialize]. now apply (run_with_raise clock _ _ names f).
Qed.

Lemma timestamp_label_from_filename_witness :
  Harness.timestamp_of "frame_003_t9.0s.jpg" = Ok "9.0s" /\
  Harness.timestamp_of "cover.jpg" = Raise IndexError /\
  Harness.run_progressive_analysis_test Examples.clock
    (Some Examples.stray_listing) = Raise IndexError.
Proof.
  destruct (timestamp_label_from_filename Examples.clock) as (_ & B & A & R).
  assert (N : ~ PyStr.Substring "_t" "cover.jpg")
    by (apply contains_false; reflexivity).
  split; [|split].
  - apply (B "frame_003" "9.0" "").
    + apply (FirstAt_find _ _ _ "9.0s.jpg"). reflexivity.
    + apply (FirstAt_find _ _ _ ""). reflexivity.
    + apply contains_false. reflexivity.
  - apply A, N.
  - apply (R Examples.stray_listing "cover.jpg"); [simpl; tauto | reflexivity | exact N].
Defined.

(** C10 as stated fails for a name with a second "_t" before the "s.jpg":
    in "frame_t1_t2s.jpg" the text between the first "_t" and the
    following "s.jpg" is "1_t2", while the label computed is "1s". *)
Lemma timestamp_label_not_between :
  PyStr.FirstAt "_t" "frame" ("frame" ++ "_t" ++ "1_t2" ++ "s.jpg" ++ "") /\
  PyStr.FirstAt "s.jpg" "1_t2" ("1_t2" ++ "s.jpg" ++ "") /\
  Harness.timestamp_of ("frame" ++ "_t" ++ "1_t2" ++ "s.jpg" ++ "") = Ok "1s" /\
  "1s" <> "1_t2" ++ "s".
Proof.
  split; [apply (FirstAt_find _ _ _ "1_t2s.jpg"); reflexivity|].
  split; [apply (FirstAt_find _ _ _ ""); reflexivity|].
  split; [reflexivity | discriminate].
Qed.
